(** * setup.py of the [typing] distribution: model and properties

    The script under study is a packaging script.  At module level it
      - compares [sys.version_info] against three literal tuples and leaves
        with [exit(1)] after a message on [sys.stderr] when the interpreter
        is too old,
      - binds a handful of string constants,
      - picks a source directory with a subscript on a two-entry dict
        keyed by [sys.version_info.major],
      - calls [setuptools.setup] once with keyword arguments.

    The embedding below follows that order.  Python values that occur are
    integers and strings; tuples are lists of such values; the dict is a
    finite map; a run of the script is a computation in a small monad that
    records the observable events (writes to the error stream, calls of
    [setup]) and either ends normally or with a Python exception. *)

From Stdlib Require Import ZArith String Ascii List Lia.
From stdpp Require Import base option list countable gmap strings.

Open Scope Z_scope.

(** ** Python values *)

(** The two families of interpreters the script is meant to run under.
    They differ, for what matters here, in how an integer is ordered
    against a string and in which characters [str.lstrip] removes. *)
Inductive flavour := Python2 | Python3.

Inductive pyval :=
| Int (n : Z)
| Str (s : string).

Definition pytuple := list pyval.

#[global] Instance pyval_eq_dec : EqDecision pyval.
Proof. solve_decision. Defined.

Definition pyval_to_sum (x : pyval) : Z + string :=
  match x with Int n => inl n | Str s => inr s end.

Definition pyval_of_sum (x : Z + string) : pyval :=
  match x with inl n => Int n | inr s => Str s end.

#[global] Instance pyval_countable : Countable pyval.
Proof.
  refine (inj_countable' pyval_to_sum pyval_of_sum _).
  intros []; reflexivity.
Defined.

(** The four ordering operators of Python ([==] and [!=] never raise and
    are handled apart). *)
Inductive cmpop := LT | LE | GT | GE.

Definition int_cmp (op : cmpop) (a b : Z) : bool :=
  match op with
  | LT => a <? b
  | LE => a <=? b
  | GT => b <? a
  | GE => b <=? a
  end.

Definition str_cmp (op : cmpop) (s t : string) : bool :=
  match op with
  | LT => String.ltb s t
  | LE => String.leb s t
  | GT => String.ltb t s
  | GE => String.leb t s
  end.

(** [x == y] on values: an integer never equals a string. *)
Definition py_eq (x y : pyval) : bool := bool_decide (x = y).

(** [x op y] on values.  [None] stands for the [TypeError] that Python 3
    raises for unorderable types; Python 2 orders every number before
    every string instead. *)
Definition py_cmp (lang : flavour) (op : cmpop) (x y : pyval) : option bool :=
  match x, y with
  | Int a, Int b => Some (int_cmp op a b)
  | Str s, Str t => Some (str_cmp op s t)
  | Int _, Str _ =>
      match lang with
      | Python2 => Some (match op with LT | LE => true | GT | GE => false end)
      | Python3 => None
      end
  | Str _, Int _ =>
      match lang with
      | Python2 => Some (match op with LT | LE => false | GT | GE => true end)
      | Python3 => None
      end
  end.

(** Comparison of the lengths left over when one tuple is a prefix of the
    other. *)
Definition len_cmp (op : cmpop) (v w : pytuple) : bool :=
  int_cmp op (Z.of_nat (length v)) (Z.of_nat (length w)).

(** [v op w] on tuples: walk to the first position where the items differ
    under [==]; when there is none within the shorter tuple the lengths
    decide, otherwise the two items at that position decide. *)
Fixpoint tuple_cmp (lang : flavour) (op : cmpop) (v w : pytuple) : option bool :=
  match v, w with
  | x :: v', y :: w' =>
      if py_eq x y then tuple_cmp lang op v' w' else py_cmp lang op x y
  | _, _ => Some (len_cmp op v w)
  end.

(** ** Exceptions, events and the script monad *)

Inductive exn :=
| SystemExit (code : Z)
| TypeError
| IndexError
| KeyError (key : pyval)
| OtherError (name : string).

(** Keyword arguments of the call [setup(...)]. *)
Record setup_kwargs := SetupKwargs {
  kw_name : string;
  kw_version : string;
  kw_description : string;
  kw_long_description : string;
  kw_author : string;
  kw_author_email : string;
  kw_url : string;
  kw_license : string;
  kw_platforms : list string;
  kw_package_dir : gmap string string;
  kw_py_modules : list string;
  kw_classifiers : list string
}.

Inductive event :=
| StderrWrite (text : string)
| SetupCall (kw : setup_kwargs).

(** A computation yields the events it produced, in order, and either an
    uncaught exception or a value. *)
Definition M (A : Type) : Type := list event * (exn + A).

Definition M_ret {A} (a : A) : M A := ([], inr a).

Definition M_bind {A B} (f : A -> M B) (m : M A) : M B :=
  match m with
  | (t, inl e) => (t, inl e)
  | (t, inr a) => let '(t', r) := f a in (t ++ t', r)
  end.

#[global] Instance M_mret : MRet M := @M_ret.
#[global] Instance M_mbind : MBind M := @M_bind.

Definition raise {A} (e : exn) : M A := ([], inl e).

Definition emit (ev : event) : M unit := ([ev], inr tt).

(** A comparison that may raise [TypeError]. *)
Definition compare (r : option bool) : M bool :=
  match r with
  | Some b => mret b
  | None => raise TypeError
  end.

Definition trace {A} (m : M A) : list event := fst m.
Definition result {A} (m : M A) : exn + A := snd m.

(** The status the interpreter hands to the operating system: [0] after a
    normal end, the code of a [SystemExit], [1] for any other uncaught
    exception. *)
Definition exit_status {A} (r : exn + A) : Z :=
  match r with
  | inr _ => 0
  | inl (SystemExit code) => code
  | inl _ => 1
  end.

(** The records handed to [setup] during a run, in order. *)
Definition setup_calls (t : list event) : list setup_kwargs :=
  omap (fun ev => match ev with SetupCall kw => Some kw | _ => None end) t.

(** The text written to the error stream during a run. *)
Definition stderr_text (t : list event) : list string :=
  omap (fun ev => match ev with StderrWrite s => Some s | _ => None end) t.

(** ** The script *)

Definition newline : string := String "010"%char EmptyString.

(** Characters removed by [str.lstrip()] without argument: the six ASCII
    white-space characters, and under Python 3 also the four separators
    [0x1c]-[0x1f] (strings here are ASCII, as the script's literals are). *)
Definition is_space (lang : flavour) (c : ascii) : bool :=
  let n := nat_of_ascii c in
  (Nat.eqb n 32 || (Nat.leb 9 n && Nat.leb n 13)
   || match lang with
      | Python2 => false
      | Python3 => Nat.leb 28 n && Nat.leb n 31
      end)%bool.

Fixpoint lstrip (lang : flavour) (s : string) : string :=
  match s with
  | String c s' => if is_space lang c then lstrip lang s' else s
  | EmptyString => EmptyString
  end.

(** The dict literal [{2: 'python2', 3: '.'}]. *)
Definition layout : gmap pyval string :=
  {[ Int 2 := "python2"%string; Int 3 := "."%string ]}.

(** [d[k]]: the value stored under [k], or [KeyError(k)]. *)
Definition subscript (d : gmap pyval string) (k : pyval) : M string :=
  match d !! k with
  | Some x => mret x
  | None => raise (KeyError k)
  end.

(** [sys.version_info.major] is the item at index 0 of the version
    tuple. *)
Definition major (version_info : pytuple) : M pyval :=
  match version_info with
  | x :: _ => mret x
  | [] => raise IndexError
  end.

Definition error_message : string :=
  ("ERROR: You need either Python2 2.7 or later "
   ++ "or Python3 3.2 or later "
   ++ "to install the typing package." ++ newline)%string.

Definition version : string := "0.0.1.dev1".
Definition description : string := "Type annotations for Python".

Definition long_description_literal : string :=
  (newline
   ++ "Typing -- Type annotations for Python" ++ newline
   ++ newline
   ++ "Typing is intended as a standard notation for Python function and variable type" ++ newline
   ++ "annotations. The notation can be used for documenting code in a concise," ++ newline
   ++ "standard format, and it has been designed to also be used by static and runtime" ++ newline
   ++ "type checkers, static analyzers, IDEs and other tools. The typing module" ++ newline
   ++ "originates from the mypy optional static type checker for Python." ++ newline)%string.

Definition classifiers : list string :=
  [ "Development Status :: 2 - Pre-Alpha";
    "Environment :: Console";
    "Intended Audience :: Developers";
    "License :: OSI Approved :: MIT License";
    "Operating System :: POSIX";
    "Programming Language :: Python :: 2.7";
    "Programming Language :: Python :: 3.2";
    "Programming Language :: Python :: 3.3";
    "Programming Language :: Python :: 3.4";
    "Topic :: Software Development" ]%string.

Section Script.

(** The interpreter that runs the script, and the external entry point
    [setuptools.setup]: it either returns ([None]; the script ignores
    the value) or raises. *)
Variable lang : flavour.
Variable setup : setup_kwargs -> option exn.

Definition long_description : string := lstrip lang long_description_literal.

(** The condition of the [if]:
    [sys.version_info < (2, 7, 0) or (3,) < sys.version_info < (3, 2, 0)],
    with the short circuit of [or] and of the chained comparison. *)
Definition unsupported (version_info : pytuple) : M bool :=
  below27 ← compare (tuple_cmp lang LT version_info [Int 2; Int 7; Int 0]);
  if below27 : bool then mret true
  else
    above3 ← compare (tuple_cmp lang LT [Int 3] version_info);
    if above3 : bool
    then compare (tuple_cmp lang LT version_info [Int 3; Int 2; Int 0])
    else mret false.

(** Lines 6-10: the version gate.  [exit(1)] raises [SystemExit(1)]. *)
Definition version_gate (version_info : pytuple) : M unit :=
  bad ← unsupported version_info;
  if bad : bool
  then emit (StderrWrite error_message);; raise (SystemExit 1)
  else mret tt.

(** Line 24: the source-layout selector. *)
Definition select_package_dir (version_info : pytuple) : M string :=
  k ← major version_info;
  subscript layout k.

(** The keyword arguments of lines 38-49. *)
Definition metadata (package_dir : string) : setup_kwargs :=
  {| kw_name := "typing";
     kw_version := version;
     kw_description := description;
     kw_long_description := long_description;
     kw_author := "Jukka Lehtosalo";
     kw_author_email := "jukka.lehtosalo@iki.fi";
     kw_url := "http://www.mypy-lang.org/";
     kw_license := "MIT License";
     kw_platforms := ["POSIX"%string];
     kw_package_dir := {[ ""%string := package_dir ]};
     kw_py_modules := ["typing"%string];
     kw_classifiers := classifiers |}.

(** The call itself: the record is handed over, then whatever the
    toolchain raises is raised here. *)
Definition call_setup (kw : setup_kwargs) : M unit :=
  emit (SetupCall kw);;
  match setup kw with
  | None => mret tt
  | Some e => raise e
  end.

(** The whole module body, run with [sys.version_info] bound to the
    given tuple. *)
Definition script (version_info : pytuple) : M unit :=
  version_gate version_info;;
  package_dir ← select_package_dir version_info;
  call_setup (metadata package_dir).

End Script.

(** ** Interpreter version tuples *)

(** The five fields of [sys.version_info]. *)
Record sys_version_info := VersionInfo {
  vi_major : Z;
  vi_minor : Z;
  vi_micro : Z;
  vi_releaselevel : string;
  vi_serial : Z
}.

Definition as_tuple (vi : sys_version_info) : pytuple :=
  [Int (vi_major vi); Int (vi_minor vi); Int (vi_micro vi);
   Str (vi_releaselevel vi); Int (vi_serial vi)].

(** The numeric components of an interpreter version are not negative. *)
Definition well_formed (vi : sys_version_info) : Prop :=
  0 <= vi_major vi /\ 0 <= vi_minor vi /\ 0 <= vi_micro vi /\ 0 <= vi_serial vi.

Definition final (a b c : Z) : sys_version_info := VersionInfo a b c "final" 0.

Definition noop_setup (_ : setup_kwargs) : option exn := None.
Definition failing_setup (_ : setup_kwargs) : option exn := Some (SystemExit 1).


(** What a call of the toolchain leaves behind: a normal return or the
    exception it raised. *)
Definition toolchain_outcome (r : option exn) : exn + unit :=
  match r with
  | None => inr tt
  | Some e => inl e
  end.

(** A tuple [(m, x, ...)]: major component [m] followed by at least a
    minor component. *)
Definition minor_release_of (m : Z) (v : pytuple) : Prop :=
  exists x rest, v = Int m :: x :: rest.

(** Lexicographic order on integer tuples, a proper prefix being smaller:
    the order the version comparisons are meant to compute. *)
Inductive lex_lt : list Z -> list Z -> Prop :=
| lex_lt_prefix b w : lex_lt [] (b :: w)
| lex_lt_head a b v w : a < b -> lex_lt (a :: v) (b :: w)
| lex_lt_tail a v w : lex_lt v w -> lex_lt (a :: v) (a :: w).

(** The gate condition on the numeric fields of a version record. *)
Definition too_old (vi : sys_version_info) : bool :=
  let '(a, b, c) := (vi_major vi, vi_minor vi, vi_micro vi) in
  ((a <? 2) || ((a =? 2) && ((b <? 7) || ((b =? 7) && (c <? 0))))
   || ((a =? 3) && ((b <? 2) || ((b =? 2) && (c <? 0)))))%bool.

(** ** Basic facts *)

(** Integer tests stay folded under simplification, to be split by their
    specifications. *)
#[local] Arguments Z.eqb : simpl never.
#[local] Arguments Z.ltb : simpl never.
#[local] Arguments Z.leb : simpl never.
#[local] Arguments Z.of_nat : simpl never.

Lemma py_eq_Int a b : py_eq (Int a) (Int b) = (a =? b).
Proof.
  unfold py_eq. case_bool_decide as H; destruct (Z.eqb_spec a b); congruence.
Qed.

Lemma py_eq_Str_Int s b : py_eq (Str s) (Int b) = false.
Proof. unfold py_eq. case_bool_decide; congruence. Qed.

Lemma py_eq_refl x : py_eq x x = true.
Proof. unfold py_eq. case_bool_decide; congruence. Qed.

Lemma M_bind_ret {A B} (a : A) (f : A -> M B) : (mret a ≫= f) = f a.
Proof. unfold mbind, mret, M_mbind, M_mret, M_bind, M_ret. destruct (f a); reflexivity. Qed.

Lemma M_bind_raise {A B} (e : exn) (f : A -> M B) : (raise e ≫= f) = raise e.
Proof. reflexivity. Qed.

(** Case analysis on the integer tests left after unfolding a tuple
    comparison against a literal. *)
Ltac split_tests :=
  repeat match goal with
    | H : context [py_eq (Int _) (Int _)] |- _ => rewrite py_eq_Int in H
    | |- context [py_eq (Int _) (Int _)] => rewrite py_eq_Int
    | H : context [py_eq (Str _) (Int _)] |- _ => rewrite py_eq_Str_Int in H
    | |- context [py_eq (Str _) (Int _)] => rewrite py_eq_Str_Int
    | H : context [?a =? ?b] |- _ => destruct (Z.eqb_spec a b); subst; simpl in H
    | |- context [?a =? ?b] => destruct (Z.eqb_spec a b); subst; simpl
    | H : context [?a <? ?b] |- _ => destruct (Z.ltb_spec a b); simpl in H
    | |- context [?a <? ?b] => destruct (Z.ltb_spec a b); simpl
    | H : context [?a <=? ?b] |- _ => destruct (Z.leb_spec a b); simpl in H
    | |- context [?a <=? ?b] => destruct (Z.leb_spec a b); simpl
    end.

(** The tuple comparison on integer tuples is the lexicographic order,
    under either interpreter. *)
Lemma tuple_lt_lex lang (v w : list Z) :
  tuple_cmp lang LT (Int <$> v) (Int <$> w) = Some true <-> lex_lt v w.
Proof.
  revert w; induction v as [|a v IH]; intros [|b w]; simpl.
  - split; [discriminate | inversion 1].
  - split; [constructor | reflexivity].
  - split; [discriminate | inversion 1].
  - rewrite py_eq_Int. destruct (Z.eqb_spec a b) as [->|Hne].
    + rewrite IH. split; [by constructor|].
      inversion 1; subst; [lia | done].
    + simpl. destruct (Z.ltb_spec a b).
      * split; [by constructor | done].
      * split; [discriminate|]. inversion 1; subst; [lia | done].
Qed.

(** On integer tuples the comparison never raises. *)
Lemma tuple_cmp_ints_total lang op (v w : list Z) :
  exists b, tuple_cmp lang op (Int <$> v) (Int <$> w) = Some b.
Proof.
  revert w; induction v as [|a v IH]; intros [|b w]; simpl; eauto.
  rewrite py_eq_Int. destruct (a =? b); eauto.
Qed.

(** On the tuple of a version record the gate condition is decided by
    the three numeric fields alone, whatever the interpreter. *)
Lemma unsupported_record lang vi :
  unsupported lang (as_tuple vi) = mret (too_old vi).
Proof.
  destruct vi as [a b c l s]. unfold unsupported, too_old, as_tuple. simpl.
  split_tests; try lia; reflexivity.
Qed.

(** ** The gate and the selector, step by step *)

Lemma unsupported_cases lang v :
  unsupported lang v = mret true \/ unsupported lang v = mret false
  \/ unsupported lang v = raise TypeError.
Proof.
  unfold unsupported.
  destruct (tuple_cmp lang LT v [Int 2; Int 7; Int 0]) as [[]|];
    destruct (tuple_cmp lang LT [Int 3] v) as [[]|];
    destruct (tuple_cmp lang LT v [Int 3; Int 2; Int 0]) as [[]|];
    auto.
Qed.

Lemma gate_rejects lang v :
  unsupported lang v = mret true ->
  version_gate lang v = ([StderrWrite error_message], inl (SystemExit 1)).
Proof. unfold version_gate. intros ->. reflexivity. Qed.

Lemma gate_passes lang v :
  unsupported lang v = mret false -> version_gate lang v = mret tt.
Proof. unfold version_gate. intros ->. reflexivity. Qed.

Lemma gate_passes_inv lang v :
  version_gate lang v = mret tt -> unsupported lang v = mret false.
Proof.
  unfold version_gate.
  destruct (unsupported_cases lang v) as [H|[H|H]]; rewrite H; auto; discriminate.
Qed.

Lemma script_rejects lang setup v :
  unsupported lang v = mret true ->
  script lang setup v = ([StderrWrite error_message], inl (SystemExit 1)).
Proof. intros H. unfold script. rewrite (gate_rejects _ _ H). reflexivity. Qed.

Lemma script_dispatches lang setup v dir :
  unsupported lang v = mret false ->
  select_package_dir v = mret dir ->
  script lang setup v
  = ([SetupCall (metadata lang dir)], toolchain_outcome (setup (metadata lang dir))).
Proof.
  intros H Hd. unfold script. rewrite (gate_passes _ _ H), Hd.
  unfold call_setup. simpl. destruct (setup (metadata lang dir)); reflexivity.
Qed.

Lemma script_lookup_fails lang setup v e :
  unsupported lang v = mret false ->
  select_package_dir v = raise e ->
  script lang setup v = raise e.
Proof.
  intros H Hd. unfold script. rewrite (gate_passes _ _ H), Hd. reflexivity.
Qed.

Lemma select_2 rest : select_package_dir (Int 2 :: rest) = mret "python2"%string.
Proof. reflexivity. Qed.

Lemma select_3 rest : select_package_dir (Int 3 :: rest) = mret "."%string.
Proof. reflexivity. Qed.

Lemma subscript_unlisted k :
  k <> Int 2 -> k <> Int 3 -> subscript layout k = raise (KeyError k).
Proof.
  intros H2 H3. unfold subscript, layout.
  rewrite lookup_insert_ne by congruence.
  rewrite lookup_singleton_ne by congruence. reflexivity.
Qed.

Lemma select_unlisted k rest :
  k <> Int 2 -> k <> Int 3 ->
  select_package_dir (k :: rest) = raise (KeyError k).
Proof.
  intros H2 H3. unfold select_package_dir, major.
  rewrite M_bind_ret. by apply subscript_unlisted.
Qed.

(** The two interpreters strip the same prefix from the long description:
    the one leading line break. *)
Lemma long_description_text lang :
  long_description lang
  = ("Typing -- Type annotations for Python" ++ newline
     ++ newline
     ++ "Typing is intended as a standard notation for Python function and variable type" ++ newline
     ++ "annotations. The notation can be used for documenting code in a concise," ++ newline
     ++ "standard format, and it has been designed to also be used by static and runtime" ++ newline
     ++ "type checkers, static analyzers, IDEs and other tools. The typing module" ++ newline
     ++ "originates from the mypy optional static type checker for Python." ++ newline)%string.
Proof. destruct lang; vm_compute; reflexivity. Qed.

Lemma metadata_flavour lang1 lang2 dir : metadata lang1 dir = metadata lang2 dir.
Proof.
  unfold metadata. rewrite (long_description_text lang1), (long_description_text lang2).
  reflexivity.
Qed.

(** ** Concrete runs *)

Example run_2_6_9 :
  script Python2 noop_setup (as_tuple (final 2 6 9))
  = ([StderrWrite error_message], inl (SystemExit 1)).
Proof. vm_compute. reflexivity. Qed.

Example run_2_7_0 :
  script Python2 noop_setup (as_tuple (final 2 7 0))
  = ([SetupCall (metadata Python2 "python2")], inr tt).
Proof. vm_compute. reflexivity. Qed.

Example run_3_1_5 :
  script Python3 noop_setup (as_tuple (final 3 1 5))
  = ([StderrWrite error_message], inl (SystemExit 1)).
Proof. vm_compute. reflexivity. Qed.

Example run_3_4_0 :
  script Python3 failing_setup (as_tuple (final 3 4 0))
  = ([SetupCall (metadata Python3 ".")], inl (SystemExit 1)).
Proof. vm_compute. reflexivity. Qed.

Example run_4_0_0 :
  script Python3 noop_setup (as_tuple (final 4 0 0)) = ([], inl (KeyError (Int 4))).
Proof. vm_compute. reflexivity. Qed.

Example run_str_major_py3 :
  script Python3 noop_setup [Str "x"] = ([], inl TypeError).
Proof. vm_compute. reflexivity. Qed.

Example run_str_major_py2 :
  script Python2 noop_setup [Str "x"] = ([], inl (KeyError (Str "x"))).
Proof. vm_compute. reflexivity. Qed.

(** ** Order facts used by the claims *)

Lemma str_ge_not_lt s t : String.leb t s = true -> String.ltb s t = false.
Proof.
  unfold String.leb, String.ltb. rewrite (String.compare_antisym s t).
  destruct (String.compare t s); simpl; congruence.
Qed.

Lemma py_ge_not_lt lang x y :
  py_cmp lang GE x y = Some true -> py_cmp lang LT x y = Some false.
Proof.
  destruct x as [a|s], y as [b|t], lang; simpl; try congruence.
  - intros H%(inj Some). f_equal. split_tests; lia || congruence.
  - intros H%(inj Some). f_equal. split_tests; lia || congruence.
  - intros H%(inj Some). f_equal. by apply str_ge_not_lt.
  - intros H%(inj Some). f_equal. by apply str_ge_not_lt.
Qed.

(** [v >= w] excludes [v < w]. *)
Lemma tuple_ge_not_lt lang v w :
  tuple_cmp lang GE v w = Some true -> tuple_cmp lang LT v w = Some false.
Proof.
  revert w; induction v as [|x v IH]; intros [|y w]; simpl;
    try (unfold len_cmp; simpl; intros H%(inj Some); f_equal;
         split_tests; lia || congruence).
  destruct (py_eq x y); [apply IH | apply py_ge_not_lt].
Qed.

(** A tuple with a minor component is above the one-item tuple of its
    major component. *)
Lemma minor_release_above lang m v :
  minor_release_of m v -> tuple_cmp lang LT [Int m] v = Some true.
Proof.
  intros (x & rest & ->). simpl. rewrite py_eq_refl. reflexivity.
Qed.

Lemma below_27_unsupported lang v :
  tuple_cmp lang LT v [Int 2; Int 7; Int 0] = Some true ->
  unsupported lang v = mret true.
Proof. unfold unsupported. intros ->. reflexivity. Qed.

Lemma major_3_not_below_27 lang rest :
  tuple_cmp lang LT (Int 3 :: rest) [Int 2; Int 7; Int 0] = Some false.
Proof. reflexivity. Qed.

(** For a tuple of major component 3 the gate condition is the chained
    comparison alone. *)
Lemma unsupported_major_3 lang rest b c :
  tuple_cmp lang LT [Int 3] (Int 3 :: rest) = Some b ->
  tuple_cmp lang LT (Int 3 :: rest) [Int 3; Int 2; Int 0] = Some c ->
  unsupported lang (Int 3 :: rest) = mret (b && c).
Proof.
  intros Hb Hc. unfold unsupported.
  rewrite major_3_not_below_27, Hb. destruct b; [rewrite Hc|]; reflexivity.
Qed.

(** On integer tuples the gate condition is the lexicographic reading
    of the source line: below [(2, 7, 0)], or strictly between [(3,)] and
    [(3, 2, 0)]. *)
Lemma unsupported_lex lang (v : list Z) :
  unsupported lang (Int <$> v) = mret true
  <-> lex_lt v [2; 7; 0] \/ (lex_lt [3] v /\ lex_lt v [3; 2; 0]).
Proof.
  rewrite <- !(tuple_lt_lex lang). unfold unsupported.
  change [Int 2; Int 7; Int 0] with (Int <$> [2; 7; 0]).
  change [Int 3; Int 2; Int 0] with (Int <$> [3; 2; 0]).
  change [Int 3] with (Int <$> [3]).
  destruct (tuple_cmp_ints_total lang LT v [2; 7; 0]) as [b1 ->].
  destruct (tuple_cmp_ints_total lang LT [3] v) as [b2 ->].
  destruct (tuple_cmp_ints_total lang LT v [3; 2; 0]) as [b3 ->].
  destruct b1, b2, b3; simpl; split; auto; try discriminate;
    intros [H | [H1 H2]]; discriminate.
Qed.

(** The gate has no upper bound: every version record of major component
    4 or more passes it. *)
Lemma major_4_and_above_pass lang vi :
  4 <= vi_major vi -> version_gate lang (as_tuple vi) = mret tt.
Proof.
  intros H4. apply gate_passes. rewrite unsupported_record. f_equal.
  unfold too_old. split_tests; lia || reflexivity.
Qed.

(** ** Claims *)

(** C1.  Every version tuple below [(2, 7, 0)], and every 3.x tuple below
    [(3, 2, 0)], stops the script at the gate: the diagnostic is the only
    output, the run ends in [SystemExit(1)], hence with exit status 1,
    and neither the selector nor the call of [setup] is reached (the run
    of the whole script is the run of the gate, and no record is handed
    over). *)
Theorem old_versions_exit_1 lang setup v :
  tuple_cmp lang LT v [Int 2; Int 7; Int 0] = Some true
  \/ (minor_release_of 3 v
      /\ tuple_cmp lang LT v [Int 3; Int 2; Int 0] = Some true) ->
  version_gate lang v = ([StderrWrite error_message], inl (SystemExit 1))
  /\ script lang setup v = version_gate lang v
  /\ exit_status (result (script lang setup v)) = 1
  /\ stderr_text (trace (script lang setup v)) = [error_message]
  /\ setup_calls (trace (script lang setup v)) = [].
Proof.
  intros H.
  assert (Hu : unsupported lang v = mret true).
  { destruct H as [H | [H3 H]].
    - by apply below_27_unsupported.
    - pose proof (minor_release_above lang _ _ H3) as Hab.
      destruct H3 as (x & rest & ->).
      rewrite (unsupported_major_3 lang _ true true); auto. }
  rewrite (script_rejects _ setup _ Hu), (gate_rejects _ _ Hu). auto.
Qed.

Lemma old_versions_exit_1_witness :
  script Python2 noop_setup (as_tuple (final 2 6 9))
  = version_gate Python2 (as_tuple (final 2 6 9))
  /\ exit_status (result (script Python3 noop_setup (as_tuple (final 3 1 5)))) = 1.
Proof.
  split.
  - apply (old_versions_exit_1 Python2 noop_setup (as_tuple (final 2 6 9))).
    left. reflexivity.
  - apply (old_versions_exit_1 Python3 noop_setup (as_tuple (final 3 1 5))).
    right. split; [by eexists _, _ | reflexivity].
Defined.

(** What the two range conditions of the Python 2 case say about the
    fields of a well-formed version record. *)
Lemma python2_range lang vi :
  well_formed vi ->
  tuple_cmp lang GE (as_tuple vi) [Int 2; Int 7; Int 0] = Some true ->
  tuple_cmp lang LT (as_tuple vi) [Int 3; Int 0] = Some true ->
  vi_major vi = 2 /\ 7 <= vi_minor vi.
Proof.
  destruct vi as [a b c l s]. unfold well_formed, as_tuple. simpl.
  intros (Ha & Hb & Hc & Hs) Hge Hlt.
  unfold len_cmp in *. simpl in *.
  split_tests; try discriminate; lia.
Qed.

(** C2.  For every interpreter version tuple at or above [(2, 7, 0)] and
    below [(3, 0)] the gate lets the script through, the selector returns
    the directory stored under key 2, ['python2'], and the script goes on
    to hand [setup] the metadata built with that directory. *)
Theorem python2_selects_python2_dir lang setup vi :
  well_formed vi ->
  tuple_cmp lang GE (as_tuple vi) [Int 2; Int 7; Int 0] = Some true ->
  tuple_cmp lang LT (as_tuple vi) [Int 3; Int 0] = Some true ->
  version_gate lang (as_tuple vi) = mret tt
  /\ layout !! Int 2 = Some "python2"%string
  /\ select_package_dir (as_tuple vi) = mret "python2"%string
  /\ script lang setup (as_tuple vi)
     = ([SetupCall (metadata lang "python2")],
        toolchain_outcome (setup (metadata lang "python2"))).
Proof.
  intros Hwf Hge Hlt.
  destruct (python2_range lang vi Hwf Hge Hlt) as [Hmaj Hmin].
  assert (Hu : unsupported lang (as_tuple vi) = mret false).
  { rewrite unsupported_record. f_equal.
    destruct Hwf as (_ & _ & Hmic & _).
    unfold too_old. rewrite Hmaj. split_tests; lia || reflexivity. }
  assert (Hs : select_package_dir (as_tuple vi) = mret "python2"%string).
  { unfold as_tuple. rewrite Hmaj. apply select_2. }
  split; [by apply gate_passes|].
  split; [reflexivity|].
  split; [exact Hs|].
  by apply script_dispatches.
Qed.

Lemma python2_selects_python2_dir_witness :
  select_package_dir (as_tuple (final 2 7 10)) = mret "python2"%string.
Proof.
  apply (python2_selects_python2_dir Python2 noop_setup (final 2 7 10)).
  - unfold well_formed; simpl; lia.
  - reflexivity.
  - reflexivity.
Defined.

(** C3, as stated, fails: the tuple of a 4.0.0 interpreter is at or above
    [(3, 2, 0)] and passes the gate, but the selector raises
    [KeyError(4)] instead of returning the directory stored under key 3,
    and [setup] is not called. *)
Lemma version_4_not_selected :
  tuple_cmp Python3 GE (as_tuple (final 4 0 0)) [Int 3; Int 2; Int 0] = Some true
  /\ version_gate Python3 (as_tuple (final 4 0 0)) = mret tt
  /\ select_package_dir (as_tuple (final 4 0 0)) = raise (KeyError (Int 4))
  /\ select_package_dir (as_tuple (final 4 0 0)) <> mret "."%string
  /\ script Python3 noop_setup (as_tuple (final 4 0 0)) = raise (KeyError (Int 4)).
Proof. repeat split; try reflexivity. discriminate. Qed.

(** C3, amended.  For every version tuple at or above [(3, 2, 0)] whose
    major component is 3 the gate lets the script through, the selector
    returns the directory stored under key 3, ['.'], and the script goes
    on to hand [setup] the metadata built with that directory. *)
Theorem python3_selects_dot lang setup v :
  tuple_cmp lang GE v [Int 3; Int 2; Int 0] = Some true ->
  major v = mret (Int 3) ->
  version_gate lang v = mret tt
  /\ layout !! Int 3 = Some "."%string
  /\ select_package_dir v = mret "."%string
  /\ script lang setup v
     = ([SetupCall (metadata lang ".")],
        toolchain_outcome (setup (metadata lang "."))).
Proof.
  intros Hge Hmaj.
  destruct v as [|x rest]; [discriminate|].
  unfold major in Hmaj. injection Hmaj as ->.
  assert (Hu : unsupported lang (Int 3 :: rest) = mret false).
  { destruct rest as [|y rest'].
    - reflexivity.
    - rewrite (unsupported_major_3 lang _ true false); auto.
      by apply tuple_ge_not_lt. }
  split; [by apply gate_passes|].
  split; [reflexivity|].
  split; [apply select_3|].
  apply script_dispatches; [exact Hu | apply select_3].
Qed.

Lemma python3_selects_dot_witness :
  select_package_dir (as_tuple (final 3 2 0)) = mret "."%string.
Proof.
  apply (python3_selects_dot Python3 noop_setup (as_tuple (final 3 2 0))).
  - reflexivity.
  - reflexivity.
Defined.

(** ** The selector and the dispatch in general *)

(** The dict has exactly the two entries of the literal. *)
Lemma layout_lookup_Some k dir :
  layout !! k = Some dir
  <-> (k = Int 2 /\ dir = "python2"%string) \/ (k = Int 3 /\ dir = "."%string).
Proof.
  unfold layout. rewrite lookup_insert_Some, lookup_singleton_Some.
  split.
  - intros [[<- <-] | [_ [<- <-]]]; auto.
  - intros [[-> ->] | [-> ->]]; [by left | right; split; [discriminate | done]].
Qed.

Lemma layout_dom : dom layout = ({[ Int 2; Int 3 ]} : gset pyval).
Proof. unfold layout. rewrite dom_insert_L, dom_singleton_L. reflexivity. Qed.

(** The selector either returns a directory or raises, and produces no
    event. *)
Lemma select_cases v :
  (exists k dir, major v = mret k /\ layout !! k = Some dir
                 /\ select_package_dir v = mret dir)
  \/ (exists e, select_package_dir v = raise e).
Proof.
  destruct v as [|k rest].
  - right. by exists IndexError.
  - unfold select_package_dir, major. rewrite M_bind_ret. unfold subscript.
    destruct (layout !! k) as [dir|] eqn:Hk.
    + left. by exists k, dir.
    + right. by eexists.
Qed.

Lemma select_listed v k dir :
  major v = mret k -> layout !! k = Some dir -> select_package_dir v = mret dir.
Proof.
  intros Hm Hk. unfold select_package_dir. rewrite Hm, M_bind_ret.
  unfold subscript. by rewrite Hk.
Qed.

Lemma script_type_error lang setup v :
  unsupported lang v = raise TypeError -> script lang setup v = raise TypeError.
Proof. intros H. unfold script, version_gate. rewrite H. reflexivity. Qed.

(** The three ways a run can go once the gate has let it through or not:
    a summary of the lemmas above in terms of events. *)
Lemma script_trace_cases lang setup v :
  (unsupported lang v = mret true
   /\ script lang setup v = ([StderrWrite error_message], inl (SystemExit 1)))
  \/ (unsupported lang v = mret false
      /\ exists k dir, major v = mret k /\ layout !! k = Some dir
         /\ script lang setup v
            = ([SetupCall (metadata lang dir)],
               toolchain_outcome (setup (metadata lang dir))))
  \/ (exists e, script lang setup v = raise e).
Proof.
  destruct (unsupported_cases lang v) as [H|[H|H]].
  - left. split; [done | by apply script_rejects].
  - destruct (select_cases v) as [(k & dir & Hm & Hk & Hs) | (e & He)].
    + right; left. split; [done|]. exists k, dir.
      split; [done|]. split; [done|]. by apply script_dispatches.
    + right; right. exists e. by apply script_lookup_fails.
  - right; right. exists TypeError. by apply script_type_error.
Qed.

(** C4.  Whenever the gate lets the script through, every record handed
    to the packaging toolchain carries the name ['typing'], the version
    ['0.0.1.dev1'] and the license ['MIT License']; and a record is
    handed over when the major component is a key of the layout dict. *)
Theorem handed_metadata_literals lang setup v :
  version_gate lang v = mret tt ->
  (forall kw, kw ∈ setup_calls (trace (script lang setup v)) ->
     kw_name kw = "typing"%string
     /\ kw_version kw = "0.0.1.dev1"%string
     /\ kw_license kw = "MIT License"%string)
  /\ (major v = mret (Int 2) \/ major v = mret (Int 3) ->
      exists kw, setup_calls (trace (script lang setup v)) = [kw]).
Proof.
  intros Hg%gate_passes_inv. split.
  - intros kw.
    destruct (script_trace_cases lang setup v)
      as [[_ ->] | [(_ & k & dir & _ & _ & ->) | [e ->]]]; simpl.
    + intros H. by apply elem_of_nil in H.
    + intros ->%list_elem_of_singleton. auto.
    + intros H. by apply elem_of_nil in H.
  - intros [Hm|Hm].
    + exists (metadata lang "python2").
      rewrite (script_dispatches lang setup v "python2"); [done | done |].
      by apply (select_listed v (Int 2)).
    + exists (metadata lang ".").
      rewrite (script_dispatches lang setup v "."); [done | done |].
      by apply (select_listed v (Int 3)).
Qed.

Lemma handed_metadata_literals_witness :
  exists kw,
    setup_calls (trace (script Python3 noop_setup (as_tuple (final 3 4 0)))) = [kw].
Proof.
  apply (handed_metadata_literals Python3 noop_setup (as_tuple (final 3 4 0))).
  - reflexivity.
  - right. reflexivity.
Defined.

(** C5, as stated, fails: the tuple of a 4.0.0 interpreter passes the
    gate, its major component is neither 2 nor 3, and the directory
    selection ends in the lookup error. *)
Lemma gate_admits_major_4 :
  version_gate Python3 (as_tuple (final 4 0 0)) = mret tt
  /\ major (as_tuple (final 4 0 0)) = mret (Int 4)
  /\ ~ (vi_major (final 4 0 0) = 2 \/ vi_major (final 4 0 0) = 3)
  /\ select_package_dir (as_tuple (final 4 0 0)) = raise (KeyError (Int 4)).
Proof.
  repeat split; try reflexivity. simpl. lia.
Qed.

(** C5, amended.  The gate bounds the version from below only: for every
    interpreter version tuple that passes it the major component is at
    least 2, hence 2 or 3 when it is below 4, and the lookup-error branch
    of the directory selection is taken after the gate exactly when the
    major component is 4 or more. *)
Theorem gate_bounds_major_below lang vi :
  version_gate lang (as_tuple vi) = mret tt ->
  2 <= vi_major vi
  /\ (vi_major vi < 4 -> vi_major vi = 2 \/ vi_major vi = 3)
  /\ (4 <= vi_major vi
      <-> select_package_dir (as_tuple vi) = raise (KeyError (Int (vi_major vi)))).
Proof.
  intros Hg%gate_passes_inv.
  rewrite unsupported_record in Hg. apply (inj mret) in Hg.
  destruct vi as [a b c l s]. unfold too_old, as_tuple in *. simpl in *.
  assert (Ha : 2 <= a) by (split_tests; lia || discriminate).
  split; [exact Ha|]. split; [lia|]. split.
  - intros H4. apply select_unlisted; intros [= ?]; lia.
  - intros Hs. destruct (decide (a = 2)) as [->|H2]; [discriminate|].
    destruct (decide (a = 3)) as [->|H3]; [discriminate|]. lia.
Qed.

Lemma gate_bounds_major_below_witness : 2 <= vi_major (final 3 3 0).
Proof.
  apply (gate_bounds_major_below Python3 (final 3 3 0)). reflexivity.
Defined.

(** C6.  For every major version number other than 2 and 3 the lookup in
    the dict [{2: 'python2', 3: '.'}] finds no entry, so the subscript,
    and with it the selector, raises [KeyError] and returns no
    directory. *)
Theorem unlisted_major_raises_key_error (k : Z) (rest : pytuple) :
  k <> 2 -> k <> 3 ->
  layout !! Int k = None
  /\ subscript layout (Int k) = raise (KeyError (Int k))
  /\ select_package_dir (Int k :: rest) = raise (KeyError (Int k))
  /\ forall dir, select_package_dir (Int k :: rest) <> mret dir.
Proof.
  intros H2 H3.
  assert (Hs : select_package_dir (Int k :: rest) = raise (KeyError (Int k))).
  { apply select_unlisted; congruence. }
  split.
  { unfold layout. rewrite lookup_insert_ne by congruence.
    by rewrite lookup_singleton_ne by congruence. }
  split; [apply subscript_unlisted; congruence|].
  split; [exact Hs|].
  intros dir. rewrite Hs. discriminate.
Qed.

Lemma unlisted_major_raises_key_error_witness :
  select_package_dir (as_tuple (final 1 5 2)) = raise (KeyError (Int 1)).
Proof.
  apply (unlisted_major_raises_key_error 1); lia.
Defined.

(** C7, as stated, fails: for the tuple of a 4.0.0 interpreter no
    unsupported version is detected, yet the exit status is 1, and it is
    not the status of the toolchain, which is never called (and would
    have returned normally, with status 0). *)
Lemma exit_1_without_detection :
  unsupported Python3 (as_tuple (final 4 0 0)) = mret false
  /\ exit_status (result (script Python3 noop_setup (as_tuple (final 4 0 0)))) = 1
  /\ setup_calls (trace (script Python3 noop_setup (as_tuple (final 4 0 0)))) = []
  /\ forall kw, exit_status (toolchain_outcome (noop_setup kw)) = 0.
Proof. repeat split. Qed.

(** C7, amended.  When an unsupported version is detected the script
    writes the diagnostic and exits with status 1.  In every other run
    in which the major component is a key of the layout dict (2 or 3)
    the script writes nothing, calls the toolchain once, and ends the
    way that call ended: the exception raised there, if any, is the
    result of the run, so that the exit status is the toolchain's (which
    can be 1 as well). *)
Theorem exit_status_origin lang setup v (b : bool) :
  unsupported lang v = mret b ->
  if b
  then result (script lang setup v) = inl (SystemExit 1)
       /\ exit_status (result (script lang setup v)) = 1
       /\ stderr_text (trace (script lang setup v)) = [error_message]
  else forall k dir,
       major v = mret k -> layout !! k = Some dir ->
       result (script lang setup v) = toolchain_outcome (setup (metadata lang dir))
       /\ exit_status (result (script lang setup v))
          = exit_status (toolchain_outcome (setup (metadata lang dir)))
       /\ stderr_text (trace (script lang setup v)) = []
       /\ setup_calls (trace (script lang setup v)) = [metadata lang dir].
Proof.
  intros Hu. destruct b.
  - by rewrite (script_rejects lang setup v Hu).
  - intros k dir Hm Hk.
    by rewrite (script_dispatches lang setup v dir Hu (select_listed v k dir Hm Hk)).
Qed.

Lemma exit_status_origin_witness :
  exit_status (result (script Python3 failing_setup (as_tuple (final 3 4 0))))
  = exit_status (toolchain_outcome (failing_setup (metadata Python3 "."))).
Proof.
  apply (exit_status_origin Python3 failing_setup (as_tuple (final 3 4 0)) false
           eq_refl (Int 3) "."%string); reflexivity.
Defined.

(** C8, as stated, fails: the tuple of a 4.0.0 interpreter passes the
    gate and the run ends without any call of [setup]. *)
Lemma gate_passed_setup_not_called :
  version_gate Python3 (as_tuple (final 4 0 0)) = mret tt
  /\ setup_calls (trace (script Python3 noop_setup (as_tuple (final 4 0 0)))) = []
  /\ length (setup_calls (trace (script Python3 noop_setup (as_tuple (final 4 0 0)))))
     <> 1%nat.
Proof. repeat split. discriminate. Qed.

(** C8, amended.  Whenever the gate lets the script through and the
    major component is a key of the layout dict (2 or 3), the script
    calls [setup] exactly once, and that call is its only event.  The
    record handed over is fixed but for the directory: name, version,
    description, long description, author and e-mail address, homepage,
    license, platforms, the mapping of the empty package name to the
    selected directory, the single module ['typing'] and the ten
    classifiers. *)
Theorem setup_called_once lang setup v k dir :
  version_gate lang v = mret tt ->
  major v = mret k ->
  layout !! k = Some dir ->
  trace (script lang setup v) = [SetupCall (metadata lang dir)]
  /\ setup_calls (trace (script lang setup v)) = [metadata lang dir]
  /\ metadata lang dir = metadata Python3 dir
  /\ kw_name (metadata lang dir) = "typing"%string
  /\ kw_version (metadata lang dir) = "0.0.1.dev1"%string
  /\ kw_description (metadata lang dir) = "Type annotations for Python"%string
  /\ kw_long_description (metadata lang dir) = lstrip Python2 long_description_literal
  /\ kw_author (metadata lang dir) = "Jukka Lehtosalo"%string
  /\ kw_author_email (metadata lang dir) = "jukka.lehtosalo@iki.fi"%string
  /\ kw_url (metadata lang dir) = "http://www.mypy-lang.org/"%string
  /\ kw_license (metadata lang dir) = "MIT License"%string
  /\ kw_platforms (metadata lang dir) = ["POSIX"%string]
  /\ kw_package_dir (metadata lang dir) = {[ ""%string := dir ]}
  /\ kw_py_modules (metadata lang dir) = ["typing"%string]
  /\ kw_classifiers (metadata lang dir) = classifiers
  /\ length classifiers = 10%nat.
Proof.
  intros Hg%gate_passes_inv Hm Hk.
  rewrite (script_dispatches lang setup v dir Hg (select_listed v k dir Hm Hk)).
  repeat split.
  - apply metadata_flavour.
  - apply (f_equal kw_long_description (metadata_flavour lang Python2 dir)).
Qed.

Lemma setup_called_once_witness :
  setup_calls (trace (script Python2 noop_setup (as_tuple (final 2 7 3))))
  = [metadata Python2 "python2"].
Proof.
  apply (setup_called_once Python2 noop_setup (as_tuple (final 2 7 3))
           (Int 2) "python2"%string); reflexivity.
Defined.

(** C9.  The lower bound of the 3.x range is strict.  The tuple [(3,)]
    is not above [(3,)], so it passes the gate, the selector maps it to
    ['.'], and the script goes on to call [setup]; and a tuple of major
    component 3 is rejected exactly when it is strictly above [(3,)] and
    strictly below [(3, 2, 0)]. *)
Theorem bare_major_3_passes lang setup :
  tuple_cmp lang LT [Int 3] [Int 3] = Some false
  /\ version_gate lang [Int 3] = mret tt
  /\ select_package_dir [Int 3] = mret "."%string
  /\ script lang setup [Int 3]
     = ([SetupCall (metadata lang ".")],
        toolchain_outcome (setup (metadata lang ".")))
  /\ forall rest,
       unsupported lang (Int 3 :: rest) = mret true
       <-> tuple_cmp lang LT [Int 3] (Int 3 :: rest) = Some true
           /\ tuple_cmp lang LT (Int 3 :: rest) [Int 3; Int 2; Int 0] = Some true.
Proof.
  assert (Hu : unsupported lang [Int 3] = mret false) by reflexivity.
  split; [reflexivity|]. split; [reflexivity|]. split; [reflexivity|].
  split; [by apply script_dispatches|].
  intros rest. unfold unsupported. rewrite major_3_not_below_27.
  destruct (tuple_cmp lang LT [Int 3] (Int 3 :: rest)) as [[]|];
    destruct (tuple_cmp lang LT (Int 3 :: rest) [Int 3; Int 2; Int 0]) as [[]|];
    split; (intros [? ?] || intros ?); (done || discriminate).
Qed.

(** C10.  The script is deterministic in the version tuple.  Two runs on
    the same tuple, whatever the toolchain does in each, take the same
    gate decision, select the same directory and produce the same
    events, so hand over the same record; they end the same way as soon
    as the toolchain answers the same on the records it is handed.  For
    the tuple of a version record this holds across the two
    interpreters as well. *)
Theorem same_version_same_run lang setup1 setup2 v1 v2 :
  v1 = v2 ->
  version_gate lang v1 = version_gate lang v2
  /\ select_package_dir v1 = select_package_dir v2
  /\ trace (script lang setup1 v1) = trace (script lang setup2 v2)
  /\ ((forall kw, kw ∈ setup_calls (trace (script lang setup1 v1)) ->
         setup1 kw = setup2 kw) ->
      script lang setup1 v1 = script lang setup2 v2)
  /\ forall vi lang', v1 = as_tuple vi ->
       version_gate lang v1 = version_gate lang' v2
       /\ trace (script lang setup1 v1) = trace (script lang' setup2 v2).
Proof.
  intros <-. split; [reflexivity|]. split; [reflexivity|].
  assert (Htr : forall l1 l2,
             unsupported l1 v1 = unsupported l2 v1 ->
             trace (script l1 setup1 v1) = trace (script l2 setup2 v1)).
  { intros l1 l2 Heq.
    destruct (unsupported_cases l1 v1) as [H|[H|H]];
      pose proof H as H'; rewrite Heq in H'.
    - by rewrite (script_rejects l1 setup1 v1 H), (script_rejects l2 setup2 v1 H').
    - destruct (select_cases v1) as [(k & dir & _ & _ & Hs) | (e & He)].
      + rewrite (script_dispatches l1 setup1 v1 dir H Hs),
          (script_dispatches l2 setup2 v1 dir H' Hs). simpl.
        by rewrite (metadata_flavour l1 l2).
      + by rewrite (script_lookup_fails l1 setup1 v1 e H He),
          (script_lookup_fails l2 setup2 v1 e H' He).
    - by rewrite (script_type_error l1 setup1 v1 H), (script_type_error l2 setup2 v1 H'). }
  split; [by apply Htr|]. split.
  - destruct (script_trace_cases lang setup1 v1)
      as [[Hu E1] | [(Hu & k & dir & Hm & Hk & E1) | [e E1]]].
    + intros _. by rewrite E1, (script_rejects lang setup2 v1 Hu).
    + intros Hsame. rewrite E1 in Hsame |- *.
      rewrite (script_dispatches lang setup2 v1 dir Hu (select_listed v1 k dir Hm Hk)).
      rewrite (Hsame (metadata lang dir)); [done|]. simpl. apply list_elem_of_singleton. done.
    + intros _. rewrite E1.
      destruct (unsupported_cases lang v1) as [H|[H|H]].
      * rewrite (script_rejects lang setup1 v1 H) in E1. discriminate.
      * destruct (select_cases v1) as [(k & dir & _ & _ & Hs) | (e' & He)].
        -- rewrite (script_dispatches lang setup1 v1 dir H Hs) in E1. discriminate.
        -- rewrite (script_lookup_fails lang setup1 v1 e' H He) in E1.
           by rewrite (script_lookup_fails lang setup2 v1 e' H He).
      * rewrite (script_type_error lang setup1 v1 H) in E1.
        by rewrite (script_type_error lang setup2 v1 H).
  - intros vi lang' ->.
    assert (Hu : unsupported lang (as_tuple vi) = unsupported lang' (as_tuple vi))
      by (by rewrite !unsupported_record).
    split; [|by apply Htr].
    unfold version_gate. by rewrite Hu.
Qed.

Lemma same_version_same_run_witness :
  trace (script Python3 noop_setup (as_tuple (final 3 4 0)))
  = trace (script Python3 failing_setup (as_tuple (final 3 4 0))).
Proof.
  apply (same_version_same_run Python3 noop_setup failing_setup
           (as_tuple (final 3 4 0)) (as_tuple (final 3 4 0)) eq_refl).
Defined.

(** ** Further properties of the script *)

Lemma too_old_spec vi :
  well_formed vi ->
  too_old vi = true
  <-> vi_major vi < 2 \/ (vi_major vi = 2 /\ vi_minor vi < 7)
      \/ (vi_major vi = 3 /\ vi_minor vi < 2).
Proof.
  destruct vi as [a b c l s]. unfold well_formed, too_old. simpl.
  intros (_ & _ & Hc & _).
  split_tests; split; try (intros; lia); try discriminate; auto.
Qed.

Lemma version_gate_record lang vi :
  version_gate lang (as_tuple vi)
  = if too_old vi
    then ([StderrWrite error_message], inl (SystemExit 1))
    else mret tt.
Proof.
  unfold version_gate. rewrite unsupported_record. by destruct (too_old vi).
Qed.

(** X1.  Which interpreters the gate turns away, in terms of the fields
    of [sys.version_info]: exactly those of major version below 2, the
    2.x below 2.7 and the 3.x below 3.2; it lets through exactly 2.7 and
    later 2.x, 3.2 and later 3.x, and every major version from 4 on.
    The micro version, the release level and the serial play no part. *)
Theorem gate_decision_by_fields lang vi :
  well_formed vi ->
  (version_gate lang (as_tuple vi)
   = ([StderrWrite error_message], inl (SystemExit 1))
   <-> vi_major vi < 2 \/ (vi_major vi = 2 /\ vi_minor vi < 7)
       \/ (vi_major vi = 3 /\ vi_minor vi < 2))
  /\ (version_gate lang (as_tuple vi) = mret tt
      <-> (vi_major vi = 2 /\ 7 <= vi_minor vi)
          \/ (vi_major vi = 3 /\ 2 <= vi_minor vi)
          \/ 4 <= vi_major vi).
Proof.
  intros Hwf. pose proof (too_old_spec vi Hwf) as Hspec.
  rewrite version_gate_record.
  destruct (too_old vi); split; split; try discriminate; try reflexivity.
  - intros _. by apply Hspec.
  - intros H. assert (Ht : true = true) by reflexivity.
    apply Hspec in Ht. lia.
  - intros H. apply Hspec in H. discriminate.
  - intros _. destruct Hwf as (Ha & _).
    assert (Hn : ~ (vi_major vi < 2 \/ (vi_major vi = 2 /\ vi_minor vi < 7)
                    \/ (vi_major vi = 3 /\ vi_minor vi < 2))).
    { intros H. apply Hspec in H. discriminate. }
    lia.
Qed.

Lemma gate_decision_by_fields_witness :
  version_gate Python3 (as_tuple (final 3 1 4))
  = ([StderrWrite error_message], inl (SystemExit 1)).
Proof.
  apply (gate_decision_by_fields Python3 (final 3 1 4)).
  - unfold well_formed; simpl; lia.
  - right; right. simpl. lia.
Defined.

(** X2.  On a tuple that begins with three integers the gate condition
    never raises, under either interpreter, and is decided by these
    three integers: whatever follows them (release level, serial, or
    anything else, of any type and length) is never compared. *)
Theorem gate_reads_three_items lang a b c rest :
  unsupported lang (Int a :: Int b :: Int c :: rest)
  = mret (too_old (VersionInfo a b c "" 0)).
Proof.
  assert (Hnil : tuple_cmp lang LT rest [] = Some false).
  { destruct rest; reflexivity. }
  unfold unsupported, too_old. simpl. rewrite Hnil.
  split_tests; try lia; reflexivity.
Qed.

(** X3.  The whole run is decided by the major and minor version: two
    interpreters that agree on both, whatever their micro version,
    release level and serial, and whichever of Python 2 and Python 3
    semantics each has, produce the same events and end the same way
    with the same toolchain. *)
Theorem run_decided_by_major_minor lang lang' setup vi vi' :
  well_formed vi -> well_formed vi' ->
  vi_major vi = vi_major vi' ->
  vi_minor vi = vi_minor vi' ->
  script lang setup (as_tuple vi) = script lang' setup (as_tuple vi').
Proof.
  intros Hwf Hwf' Hmaj Hmin.
  assert (Hold : too_old vi = too_old vi').
  { pose proof (too_old_spec vi Hwf) as H1.
    pose proof (too_old_spec vi' Hwf') as H2.
    rewrite Hmaj, Hmin in H1.
    destruct (too_old vi), (too_old vi'); try reflexivity.
    - symmetry. apply H2, H1. reflexivity.
    - apply H1, H2. reflexivity. }
  assert (Hsel : select_package_dir (as_tuple vi) = select_package_dir (as_tuple vi')).
  { unfold as_tuple, select_package_dir, major. by rewrite Hmaj. }
  pose proof (unsupported_record lang vi) as Hu.
  pose proof (unsupported_record lang' vi') as Hu'.
  rewrite <- Hold in Hu'.
  destruct (too_old vi).
  - by rewrite (script_rejects lang setup _ Hu), (script_rejects lang' setup _ Hu').
  - destruct (select_cases (as_tuple vi)) as [(k & dir & _ & _ & Hs) | (e & He)].
    + rewrite (script_dispatches lang setup _ dir Hu Hs).
      rewrite Hsel in Hs.
      rewrite (script_dispatches lang' setup _ dir Hu' Hs).
      by rewrite (metadata_flavour lang lang').
    + rewrite (script_lookup_fails lang setup _ e Hu He).
      rewrite Hsel in He.
      by rewrite (script_lookup_fails lang' setup _ e Hu' He).
Qed.

Lemma run_decided_by_major_minor_witness :
  script Python3 noop_setup (as_tuple (VersionInfo 3 4 0 "alpha" 2))
  = script Python3 noop_setup (as_tuple (final 3 4 7)).
Proof.
  apply (run_decided_by_major_minor Python3 Python3 noop_setup
           (VersionInfo 3 4 0 "alpha" 2) (final 3 4 7));
    unfold well_formed; simpl; lia.
Defined.

(** X4.  Within one major version the gate is closed upwards: when it
    lets an interpreter through, it lets through every interpreter of
    the same major version and an equal or later minor version, and the
    same directory is selected for both. *)
Theorem gate_upward_closed_in_major lang vi vi' :
  well_formed vi -> well_formed vi' ->
  vi_major vi' = vi_major vi ->
  vi_minor vi <= vi_minor vi' ->
  version_gate lang (as_tuple vi) = mret tt ->
  version_gate lang (as_tuple vi') = mret tt
  /\ select_package_dir (as_tuple vi') = select_package_dir (as_tuple vi).
Proof.
  intros Hwf Hwf' Hmaj Hmin Hg.
  split.
  - apply (gate_decision_by_fields lang vi Hwf) in Hg.
    apply (gate_decision_by_fields lang vi' Hwf'). lia.
  - unfold as_tuple, select_package_dir, major. by rewrite Hmaj.
Qed.

Lemma gate_upward_closed_in_major_witness :
  version_gate Python3 (as_tuple (final 3 9 1)) = mret tt.
Proof.
  apply (gate_upward_closed_in_major Python3 (final 3 2 0) (final 3 9 1));
    try (unfold well_formed; simpl; lia); reflexivity.
Defined.


(** X6.  The script ends normally exactly when the gate lets it through,
    the major version is a key of the layout dict, and the call of
    [setup] on the metadata built with the selected directory returns. *)
Theorem normal_end_iff lang setup v :
  result (script lang setup v) = inr tt
  <-> version_gate lang v = mret tt
      /\ exists k dir, major v = mret k /\ layout !! k = Some dir
                       /\ setup (metadata lang dir) = None.
Proof.
  split.
  - destruct (script_trace_cases lang setup v)
      as [[_ ->] | [(Hu & k & dir & Hm & Hk & ->) | [e ->]]]; simpl;
      try discriminate.
    intros Hr. split; [by apply gate_passes|].
    exists k, dir. split; [done|]. split; [done|].
    destruct (setup (metadata lang dir)); [discriminate | done].
  - intros (Hg%gate_passes_inv & k & dir & Hm & Hk & Hs).
    rewrite (script_dispatches lang setup v dir Hg (select_listed v k dir Hm Hk)).
    simpl. by rewrite Hs.
Qed.

(** X7.  Whatever the version tuple, a record handed to [setup] maps the
    empty package name, and nothing else, to ['python2'] for major
    version 2 or to ['.'] for major version 3: no other directory is
    ever handed over. *)
Theorem handed_directory lang setup v kw :
  kw ∈ setup_calls (trace (script lang setup v)) ->
  (major v = mret (Int 2) /\ kw_package_dir kw = {[ ""%string := "python2"%string ]})
  \/ (major v = mret (Int 3) /\ kw_package_dir kw = {[ ""%string := "."%string ]}).
Proof.
  destruct (script_trace_cases lang setup v)
    as [[_ ->] | [(_ & k & dir & Hm & Hk & ->) | [e ->]]]; simpl.
  - intros H. by apply elem_of_nil in H.
  - intros ->%list_elem_of_singleton.
    apply layout_lookup_Some in Hk as [[-> ->] | [-> ->]]; auto.
  - intros H. by apply elem_of_nil in H.
Qed.

Lemma handed_directory_witness :
  (major (as_tuple (final 2 7 5)) = mret (Int 2)
   /\ kw_package_dir (metadata Python2 "python2") = {[ ""%string := "python2"%string ]})
  \/ (major (as_tuple (final 2 7 5)) = mret (Int 3)
      /\ kw_package_dir (metadata Python2 "python2") = {[ ""%string := "."%string ]}).
Proof.
  apply (handed_directory Python2 noop_setup (as_tuple (final 2 7 5))).
  simpl. apply list_elem_of_singleton. reflexivity.
Defined.

(** X8.  The run ends in the script's own lookup error, with no event
    before it, exactly when the gate lets the tuple through and its
    major component is neither 2 nor 3; the key carried by the
    [KeyError] is that major component. *)
Theorem lookup_error_iff lang setup v k :
  script lang setup v = raise (KeyError k)
  <-> version_gate lang v = mret tt
      /\ major v = mret k /\ k <> Int 2 /\ k <> Int 3.
Proof.
  split.
  - intros Hs.
    destruct (unsupported_cases lang v) as [H|[H|H]].
    + rewrite (script_rejects lang setup v H) in Hs. discriminate.
    + split; [by apply gate_passes|].
      destruct v as [|x rest].
      * rewrite (script_lookup_fails lang setup [] IndexError H) in Hs;
          [discriminate | reflexivity].
      * destruct (decide (x = Int 2)) as [->|H2].
        { rewrite (script_dispatches lang setup _ "python2" H (select_2 rest)) in Hs.
          discriminate. }
        destruct (decide (x = Int 3)) as [->|H3].
        { rewrite (script_dispatches lang setup _ "." H (select_3 rest)) in Hs.
          discriminate. }
        rewrite (script_lookup_fails lang setup _ _ H (select_unlisted x rest H2 H3)) in Hs.
        injection Hs as ->. done.
    + rewrite (script_type_error lang setup v H) in Hs. discriminate.
  - intros (Hg%gate_passes_inv & Hm & H2 & H3).
    destruct v as [|x rest]; [discriminate|].
    injection Hm as ->.
    apply script_lookup_fails; [done | by apply select_unlisted].
Qed.

Lemma unsupported_ints_total lang (v : list Z) :
  exists b, unsupported lang (Int <$> v) = mret b.
Proof.
  unfold unsupported.
  change [Int 2; Int 7; Int 0] with (Int <$> [2; 7; 0]).
  change [Int 3; Int 2; Int 0] with (Int <$> [3; 2; 0]).
  change [Int 3] with (Int <$> [3]).
  destruct (tuple_cmp_ints_total lang LT v [2; 7; 0]) as [b1 ->].
  destruct (tuple_cmp_ints_total lang LT [3] v) as [b2 ->].
  destruct (tuple_cmp_ints_total lang LT v [3; 2; 0]) as [b3 ->].
  destruct b1, b2, b3; simpl; eauto.
Qed.

(** X9.  On a tuple of integers of any length the gate never raises and
    decides by the lexicographic order in which a proper prefix is
    smaller: the script exits with the diagnostic exactly when the
    tuple is below [(2, 7, 0)] or strictly between [(3,)] and
    [(3, 2, 0)], and goes on in every other case. *)
Theorem gate_is_lexicographic lang (v : list Z) :
  (version_gate lang (Int <$> v)
   = ([StderrWrite error_message], inl (SystemExit 1))
   <-> lex_lt v [2; 7; 0] \/ (lex_lt [3] v /\ lex_lt v [3; 2; 0]))
  /\ (version_gate lang (Int <$> v) = mret tt
      <-> ~ (lex_lt v [2; 7; 0] \/ (lex_lt [3] v /\ lex_lt v [3; 2; 0]))).
Proof.
  rewrite <- (unsupported_lex lang v).
  destruct (unsupported_ints_total lang v) as [b Hb].
  unfold version_gate. rewrite Hb.
  destruct b; simpl; split; split; done.
Qed.



